(** * HIPAA Identifier Detector: a shallow embedding of [app.py]

    The program is a Streamlit script.  It configures a generative-text
    client from a stored secret, builds a prompt by interpolating the user's
    text into a fixed f-string, performs one call to the remote model and
    shows either the stripped answer or a diagnostic string.

    Python values are modelled as follows.
    - [str]: a list of Unicode code points ([N]), which is what Python's
      [str] is; literals are written with [lit] for their ASCII parts and
      with explicit code points elsewhere.
    - exceptions: a class (with Python's split between [Exception] and the
      classes deriving from [BaseException] only) and the text of [str(e)].
    - the outside world (the remote service, the screen): an explicit state,
      threaded by a small state-and-exception monad. *)

From Stdlib Require Import NArith String Ascii List Bool Lia.
From stdpp Require Import base countable gmap.
Import ListNotations.

Local Open Scope N_scope.
Local Open Scope list_scope.

(** ** Python strings *)

Module PyStr.

Definition str := list N.

(** The ASCII part of a literal. *)
Definition lit (s : string) : str :=
  List.map N_of_ascii (list_ascii_of_string s).

Definition newline : N := 10.
Definition dquote : N := 34.
Definition ldquo : N := 0x201C.
Definition rdquo : N := 0x201D.
Definition shield : str := [0x1F6E1; 0xFE0F].
Definition magnifier : N := 0x1F50D.

(** ["\n".join(lines)] *)
Fixpoint join_lines (lines : list str) : str :=
  match lines with
  | [] => []
  | [l] => l
  | l :: rest => l ++ newline :: join_lines rest
  end.

(** [str.isspace] on one character: CPython's [_PyUnicode_IsWhitespace]. *)
Definition isspace (c : N) : bool :=
  ((9 <=? c) && (c <=? 13)) || ((28 <=? c) && (c <=? 32))
  || (c =? 0x85) || (c =? 0xA0) || (c =? 0x1680)
  || ((0x2000 <=? c) && (c <=? 0x200A))
  || (c =? 0x2028) || (c =? 0x2029) || (c =? 0x202F)
  || (c =? 0x205F) || (c =? 0x3000).

(** [s.lstrip()] *)
Fixpoint lstrip (s : str) : str :=
  match s with
  | [] => []
  | c :: s' => if isspace c then lstrip s' else s
  end.

(** [s.rstrip()] *)
Definition rstrip (s : str) : str := rev (lstrip (rev s)).

(** [s.strip()] *)
Definition strip (s : str) : str := rstrip (lstrip s).

(** Truth value of a string in a condition: non-empty. *)
Definition truthy (s : str) : bool :=
  match s with [] => false | _ :: _ => true end.

(** [s.startswith(p)] *)
Fixpoint startswith (s p : str) {struct p} : bool :=
  match p, s with
  | [], _ => true
  | _ :: _, [] => false
  | a :: p', b :: s' => (a =? b) && startswith s' p'
  end.

(** [needle in hay] *)
Fixpoint contains (hay needle : str) : bool :=
  startswith hay needle ||
  match hay with
  | [] => false
  | _ :: hay' => contains hay' needle
  end.

(** Every character of [s] is whitespace (true of the empty string). *)
Definition all_space (s : str) : bool := forallb isspace s.

End PyStr.
Export PyStr.

(** ** The prompt f-string of [detect_hipaa_identifiers] *)

(** The lines of the triple-quoted f-string, in source order.  The literal
    opens with a line break and closes right after one, hence the empty
    first and last lines; the replacement field stands alone on its line. *)
Definition prompt (text_input : str) : str :=
  join_lines
   [[];
    lit "I want to detect any of the 18 HIPAA identifiers under Section 164.514(a) of the HIPAA Privacy Rules for an individual or of relatives, employers, or household members of the individual. Here are the identifiers:";
    [];
    [ldquo] ++ lit "1. Names;";
    lit "2. All geographical subdivisions smaller than a State, including street address, city, county, precinct, zip code, and their equivalent geocodes, except for the initial three digits of a zip code if specific census conditions are met.";
    lit "3. All elements of dates (except year) for dates directly related to an individual, and all ages over 89.";
    lit "4. Phone numbers;";
    lit "5. Fax numbers;";
    lit "6. Electronic mail addresses;";
    lit "7. Social Security numbers;";
    lit "8. Medical record numbers;";
    lit "9. Health plan beneficiary numbers;";
    lit "10. Account numbers;";
    lit "11. Certificate/license numbers;";
    lit "12. Vehicle identifiers and serial numbers, including license plate numbers;";
    lit "13. Device identifiers and serial numbers;";
    lit "14. Web Universal Resource Locators (URLs);";
    lit "15. Internet Protocol (IP) address numbers;";
    lit "16. Biometric identifiers, including finger and voice prints;";
    lit "17. Full face photographic images and any comparable images; and";
    lit "18. Any other unique identifying number, characteristic, or code." ++ [rdquo];
    [];
    lit "Please detect HIPAA identifiers in a step-by-step fashion. First, internally identify all named entities. Then, determine and output which of those entities are part of the 18 HIPAA identifiers.";
    [];
    lit "Now you detect HIPAA identifiers, please explain your thinking using this format:";
    [];
    lit "Rationale:";
    lit "<your thinking>";
    [];
    lit "Final Answer:";
    lit "<List of any HIPAA identifiers found or write " ++ [dquote] ++ lit "No HIPAA identifiers in the text" ++ [dquote] ++ lit ">";
    [];
    lit "Here is the text to consider:";
    [];
    lit "---";
    text_input;
    lit "---";
    []].

Definition delimiter : str := lit "---".

(** Everything the f-string puts after the replacement field. *)
Definition prompt_suffix : str := newline :: delimiter ++ [newline].

(** Everything the f-string puts before the replacement field: the prompt
    of the empty text without its last five characters. *)
Definition prompt_prefix : str :=
  Eval vm_compute in
    firstn (length (prompt []) - length prompt_suffix)%nat (prompt []).

(** ** Exceptions *)

(** A class is named by its qualified name; an exception object carries the
    method resolution order of its class (the class itself first, then its
    bases up to [BaseException]) and the text [str(e)] yields. *)
Definition pyclass := string.

Record exn := mk_exn { mro : list pyclass; str_of : str }.

(** [isinstance(e, c)] *)
Definition isinstance (e : exn) (c : pyclass) : bool :=
  existsb (String.eqb c) (mro e).

(** [isinstance(e, (c1, c2, ...))], the test of an [except] clause. *)
Definition isinstance_any (e : exn) (cs : list pyclass) : bool :=
  existsb (isinstance e) cs.

Inductive outcome (A : Type) : Type :=
| Returned (a : A)
| Raised (e : exn).
Arguments Returned {A} a.
Arguments Raised {A} e.

(** A [KeyError] whose text is [report]. *)
Definition KeyError (report : str) : exn :=
  mk_exn ["KeyError"; "LookupError"; "Exception"; "BaseException"]%string
    report.

(** What [st.secrets] raises when it finds no secrets file: a
    [FileNotFoundError] (in current releases through the subclass
    [StreamlitSecretNotFoundError]). *)
Definition SecretNotFound (report : str) : exn :=
  mk_exn ["StreamlitSecretNotFoundError"; "Error"; "FileNotFoundError";
          "OSError"; "Exception"; "BaseException"]%string
    report.

(** [st.secrets]: either there is no [secrets.toml], or there is one and it
    holds some entries.  The texts of the errors a lookup raises are the
    library's; each store carries the one its lookups report. *)
Inductive secret_store : Type :=
| NoSecretsFile (report : str)
| SecretsFile (entries : gmap str str) (report : str).

(** The value stored under a key, if any. *)
Global Instance secret_store_lookup : Lookup str str secret_store :=
  fun key d =>
    match d with
    | NoSecretsFile _ => None
    | SecretsFile entries _ => entries !! key
    end.

(** What [st.stop()] raises: a script-control exception, outside the
    [Exception] hierarchy. *)
Definition StopException : exn :=
  mk_exn ["StopException"; "ScriptControlException"; "BaseException"]%string [].

(** ** The world: the remote service's request log and the screen *)

Record request := mk_request { model_name : str; contents : str }.

(** A response object; reading its [text] property may itself raise. *)
Record response := mk_response { text : outcome str }.

Inductive ui_event : Type :=
| PageConfig (page_title page_icon layout : str)
| ErrorBox (body : str)
| Title (body : str)
| Markdown (body : str)
| TextArea (label value : str) (height : N)
| Button (label : str)
| SpinnerEnter (label : str)
| SpinnerExit
| Subheader (body : str)
| WarningBox (body : str).

Record World := mk_World { requests : list request; screen : list ui_event }.

Definition show (ev : ui_event) (w : World) : World :=
  mk_World (requests w) (screen w ++ [ev]).

Definition sent (rq : request) (w : World) : World :=
  mk_World (requests w ++ [rq]) (screen w).

(** ** A state-and-exception monad for the script *)

Definition M (A : Type) : Type := World -> outcome A * World.

Definition ret {A} (a : A) : M A := fun w => (Returned a, w).

Definition raise {A} (e : exn) : M A := fun w => (Raised e, w).

Definition bind {A B} (m : M A) (k : A -> M B) : M B :=
  fun w =>
    match m w with
    | (Returned a, w') => k a w'
    | (Raised e, w') => (Raised e, w')
    end.

(** [try: body  except (cs) as e: handler e]; an exception matching none
    of the classes keeps propagating. *)
Definition try_except {A} (body : M A) (cs : list pyclass)
    (handler : exn -> M A) : M A :=
  fun w =>
    match body w with
    | (Returned a, w') => (Returned a, w')
    | (Raised e, w') =>
        if isinstance_any e cs then handler e w' else (Raised e, w')
    end.

(** Lifting the outcome of an operation that leaves the world alone. *)
Definition lift {A} (o : outcome A) : M A := fun w => (o, w).

Declare Scope py_scope.
Delimit Scope py_scope with py.
Notation "x <- m ;; k" := (bind m (fun x => k))
  (at level 100, m at next level, k at level 200, right associativity)
  : py_scope.
Notation "m ;; k" := (bind m (fun _ => k))
  (at level 100, k at level 200, right associativity) : py_scope.
Local Open Scope py_scope.

(** ** Streamlit calls *)

Definition st_do (ev : ui_event) : M unit := fun w => (Returned tt, show ev w).

Definition st_stop {A} : M A := raise StopException.

(** [with st.spinner(label): body]: the indicator is removed when the body
    ends, also when it ends with an exception. *)
Definition with_spinner {A} (label : str) (body : M A) : M A :=
  fun w =>
    let '(r, w') := body (show (SpinnerEnter label) w) in
    (r, show SpinnerExit w').

(** [st.secrets[key]]: without a secrets file the lookup raises the
    file-not-found error; with one, a [KeyError] for a key it does not
    hold. *)
Definition getitem (d : secret_store) (key : str) : M str :=
  match d with
  | NoSecretsFile report => raise (SecretNotFound report)
  | SecretsFile entries report =>
      match entries !! key with
      | Some v => ret v
      | None => raise (KeyError report)
      end
  end.

(** ** The script *)

(** What one run of the script reads from outside: the secret store and the
    widgets' state (the text typed into the text area, if the user changed
    it, and whether the button was just pressed). *)
Record Env := mk_Env {
  secrets : secret_store;
  typed : option str;
  clicked : bool
}.

Definition example_text : str :=
  lit "David Johnson, born 11/02/1980, lives at 22 Pine Street, Boston, MA 02108. His phone number is (617) 555-3210. He came in complaining of headaches and blurred vision.".

Definition config_error_message : str :=
  lit "Your Google API key is missing or invalid. Please create a `.streamlit/secrets.toml` file with your key.".

Definition service_error_prefix : str :=
  lit "Error: Could not contact the AI model. This might be due to a rate limit or other API issue. Please try again later. Details: ".

Definition empty_input_warning : str :=
  lit "Please enter some text to analyze.".

Definition page_config : ui_event :=
  PageConfig (lit "HIPAA Identifier Detector") shield (lit "centered").

Definition gemini : str := lit "gemini-2.5-pro".

(** The content of a text widget: its [value] argument until the user
    edits it. *)
Definition widget_text (env : Env) (value : str) : str :=
  match typed env with Some s => s | None => value end.

Section Script.

(** The two library calls that leave the process: [genai.configure], and
    [GenerativeModel.generate_content], whose answer may depend on the
    requests made before. *)
Variable configure : str -> outcome unit.
Variable service : list request -> request -> outcome response.

Definition genai_configure (api_key : str) : M unit := lift (configure api_key).

(** [genai.GenerativeModel(name)]: builds the client object, no request. *)
Definition GenerativeModel (name : str) : M str := ret name.

(** [model.generate_content(prompt)]: one request to the service. *)
Definition generate_content (model : str) (prompt : str) : M response :=
  fun w =>
    let rq := mk_request model prompt in
    (service (requests w) rq, sent rq w).

Definition detect_hipaa_identifiers (text_input : str) : M str :=
  let prompt := prompt text_input in
  try_except
    (model <- GenerativeModel gemini ;;
     response <- generate_content model prompt ;;
     t <- lift (text response) ;;
     ret (strip t))
    ["Exception"%string]
    (fun e => ret (service_error_prefix ++ str_of e)).

(** The top of the script, up to and including the credential check. *)
Definition startup (env : Env) : M unit :=
  st_do page_config ;;
  try_except
    (api_key <- getitem (secrets env) (lit "google_api_key") ;;
     genai_configure api_key)
    ["KeyError"; "AttributeError"]%string
    (fun _ => st_do (ErrorBox config_error_message) ;; st_stop).

(** [st.text_area(label, value=..., height=...)]: shows the widget and
    returns its current content. *)
Definition st_text_area (env : Env) (label value : str) (height : N) : M str :=
  st_do (TextArea label value height) ;;
  ret (widget_text env value).

(** [st.button(label, type="primary")]: true in the run its press causes. *)
Definition st_button (env : Env) (label : str) : M bool :=
  st_do (Button label) ;; ret (clicked env).

(** The body of [if st.button(...):]. *)
Definition button_handler (user_input : str) : M unit :=
  if truthy user_input && truthy (strip user_input) then
    with_spinner (magnifier :: lit " Analyzing text...")
      (result <- detect_hipaa_identifiers user_input ;;
       st_do (Subheader (lit "Analysis Result")) ;;
       st_do (Markdown result))
  else
    st_do (WarningBox empty_input_warning).

(** One run of the whole script. *)
Definition script (env : Env) : M unit :=
  startup env ;;
  st_do (Title (shield ++ lit " HIPAA Identifier Detector")) ;;
  st_do (Markdown (lit "This app uses AI to detect Protected Health Information (PHI) based on the 18 HIPAA identifiers. Paste text below to analyze it for potential PHI.")) ;;
  user_input <- st_text_area env
      (lit "Enter text to be analyzed for HIPAA identifiers:") example_text 200 ;;
  pressed <- st_button env (lit "Detect Identifiers") ;;
  if pressed : bool then button_handler user_input else ret tt.

(** Streamlit runs the script anew, on a cleared page, at every user
    interaction; the requests already made stay made. *)
Definition rerun (env : Env) : M unit :=
  fun w => script env (mk_World (requests w) []).

(** A session: the runs caused by successive widget states, over one secret
    store.  It returns each run's outcome and page. *)
Fixpoint session (store : secret_store) (acts : list (option str * bool))
    (w : World) : list (outcome unit * list ui_event) * World :=
  match acts with
  | [] => ([], w)
  | (t, c) :: acts' =>
      let '(r, w') := rerun (mk_Env store t c) w in
      let '(rs, w'') := session store acts' w' in
      ((r, screen w') :: rs, w'')
  end.

End Script.

(** The part of the prefix above the opening delimiter line. *)
Definition prompt_header : str :=
  Eval vm_compute in
    firstn (length prompt_prefix - length (delimiter ++ [newline]))%nat
      prompt_prefix.

(** No whitespace at either end (true of the empty string). *)
Definition trimmed (s : str) : bool :=
  match s with
  | [] => true
  | c :: _ => negb (isspace c) && negb (isspace (List.last s c))
  end.

(** ** Vocabulary of the statements *)

(** The request [detect_hipaa_identifiers] makes for a text. *)
Definition request_for (text_input : str) : request :=
  mk_request gemini (prompt text_input).

(** What the body of the [try] block obtains from the service in world [w]:
    the response's text, or the exception raised by the call or by reading
    the text. *)
Definition answer (service : list request -> request -> outcome response)
    (w : World) (text_input : str) : outcome str :=
  match service (requests w) (request_for text_input) with
  | Returned resp => text resp
  | Raised e => Raised e
  end.


(** The page of a run stopped by the credential check. *)
Definition config_error_page : list ui_event :=
  [page_config; ErrorBox config_error_message].

(** The page above the result area, as a run with an accepted credential
    draws it. *)
Definition front_page : list ui_event :=
  [page_config;
   Title (shield ++ lit " HIPAA Identifier Detector");
   Markdown (lit "This app uses AI to detect Protected Health Information (PHI) based on the 18 HIPAA identifiers. Paste text below to analyze it for potential PHI.");
   TextArea (lit "Enter text to be analyzed for HIPAA identifiers:")
     example_text 200;
   Button (lit "Detect Identifiers")].

(** The text the button handler receives in a run. *)
Definition entered_text (env : Env) : str := widget_text env example_text.

(** The page fragment a completed analysis adds. *)
Definition result_page (result : str) : list ui_event :=
  [SpinnerEnter (magnifier :: lit " Analyzing text...");
   Subheader (lit "Analysis Result");
   Markdown result;
   SpinnerExit].

(** ** Test doubles *)

Definition world0 : World := mk_World [] [].

Definition configure_ok : str -> outcome unit := fun _ => Returned tt.

Definition service_returning (R : str)
  : list request -> request -> outcome response :=
  fun _ _ => Returned (mk_response (Returned R)).

Definition service_raising (e : exn)
  : list request -> request -> outcome response :=
  fun _ _ => Raised e.

(** A quota error of the client library (HTTP 429). *)
Definition ResourceExhausted : exn :=
  mk_exn ["ResourceExhausted"; "TooManyRequests"; "ClientError";
          "GoogleAPICallError"; "GoogleAPIError"; "Exception";
          "BaseException"]%string
         (lit "429 You exceeded your current quota").

Definition KeyboardInterrupt : exn :=
  mk_exn ["KeyboardInterrupt"; "BaseException"]%string [].

(** The text the stores below give the [KeyError] of a failed lookup. *)
Definition missing_key_report : str := lit "'google_api_key'".

Definition store_with_key : secret_store :=
  SecretsFile {[ lit "google_api_key" := lit "AIza-example" ]}
    missing_key_report.




(** A run with the credential in place, the example text untouched and the
    button pressed. *)
Definition pressed_env : Env := mk_Env store_with_key None true.

Definition sample_answer : str :=
  newline :: lit "Rationale: ..." ++ newline ::
  lit "Final Answer: Name, Date, Address, Phone Number" ++ [32; newline].

(** ** Vocabulary of the statements about whole runs *)

(** The credential check of [startup] passes: the store has an entry for
    the key and configuring with the stored value returns. *)
Definition credential_accepted (configure : str -> outcome unit)
    (store : secret_store) : bool :=
  match store with
  | NoSecretsFile _ => false
  | SecretsFile entries _ =>
      match entries !! lit "google_api_key" with
      | None => false
      | Some k =>
          match configure k with
          | Returned _ => true
          | Raised _ => false
          end
      end
  end.

(** The text in the text area during the run an interaction causes. *)
Definition act_text (a : option str * bool) : str :=
  match fst a with Some s => s | None => example_text end.

(** The texts of the interactions that press the button over a text with a
    character that is not whitespace, in order. *)
Definition analysed (acts : list (option str * bool)) : list str :=
  flat_map
    (fun a =>
       if snd a && negb (all_space (act_text a)) then [act_text a] else [])
    acts.


Definition spinner_label : str := magnifier :: lit " Analyzing text...".

(** An error of [genai.configure] that is neither a [KeyError] nor an
    [AttributeError]. *)
Definition ValueError (msg : str) : exn :=
  mk_exn ["ValueError"; "Exception"; "BaseException"]%string msg.

Definition configure_raising (e : exn) : str -> outcome unit :=
  fun _ => Raised e.

(** * Properties *)

(** ** Strings *)

Lemma startswith_app (s q : str) : startswith (s ++ q) s = true.
Proof.
  induction s as [|c s IH]; simpl.
  - reflexivity.
  - rewrite N.eqb_refl. exact IH.
Qed.

Lemma contains_eq (h n : str) :
  contains h n =
  startswith h n || match h with [] => false | _ :: h' => contains h' n end.
Proof. destruct h; reflexivity. Qed.

Lemma contains_app (p s q : str) : contains (p ++ s ++ q) s = true.
Proof.
  induction p as [|c p IH].
  - change ([] ++ s ++ q) with (s ++ q).
    rewrite contains_eq, startswith_app. reflexivity.
  - change ((c :: p) ++ s ++ q) with (c :: (p ++ s ++ q)).
    rewrite contains_eq, IH. apply orb_true_r.
Qed.

Lemma startswith_split (s p : str) :
  startswith s p = true -> exists q, s = p ++ q.
Proof.
  revert s. induction p as [|a p IH]; intros s H.
  - exists s. reflexivity.
  - destruct s as [|b s]; simpl in H; [discriminate|].
    apply andb_prop in H as [Hab Hs].
    apply N.eqb_eq in Hab. subst b.
    destruct (IH _ Hs) as [q ->]. exists q. reflexivity.
Qed.

Lemma contains_split (h n : str) :
  contains h n = true -> exists p q, h = p ++ n ++ q.
Proof.
  induction h as [|c h IH]; simpl; intros H.
  - apply orb_prop in H as [H|H]; [|discriminate].
    destruct (startswith_split _ _ H) as [q Hq]. exists [], q. exact Hq.
  - apply orb_prop in H as [H|H].
    + destruct (startswith_split _ _ H) as [q Hq]. exists [], q. exact Hq.
    + destruct (IH H) as (p & q & ->). exists (c :: p), q. reflexivity.
Qed.

Lemma all_space_app (a b : str) :
  all_space (a ++ b) = all_space a && all_space b.
Proof. apply forallb_app. Qed.

Lemma all_space_rev (a : str) : all_space (rev a) = all_space a.
Proof.
  induction a as [|c a IH]; simpl; [reflexivity|].
  rewrite all_space_app, IH. simpl. rewrite andb_true_r. apply andb_comm.
Qed.

Lemma lstrip_spaces (l m : str) :
  all_space l = true -> lstrip (l ++ m) = lstrip m.
Proof.
  induction l as [|c l IH]; simpl; intros H; [reflexivity|].
  apply andb_prop in H as [Hc Hl]. rewrite Hc. auto.
Qed.

Lemma lstrip_split (s : str) :
  exists l, s = l ++ lstrip s /\ all_space l = true.
Proof.
  induction s as [|c s (l & Hs & Hl)]; simpl.
  - exists []. split; reflexivity.
  - destruct (isspace c) eqn:Hc.
    + exists (c :: l). simpl. rewrite Hc, Hl. split; [congruence | reflexivity].
    + exists []. split; reflexivity.
Qed.

Lemma lstrip_head (s : str) :
  match lstrip s with [] => True | c :: _ => isspace c = false end.
Proof.
  induction s as [|c s IH]; simpl; [exact I|].
  destruct (isspace c) eqn:Hc; [exact IH | exact Hc].
Qed.

Lemma lstrip_fixed (c : N) (s : str) :
  isspace c = false -> lstrip (c :: s) = c :: s.
Proof. intros H. simpl. rewrite H. reflexivity. Qed.

Lemma lstrip_all_space (s : str) : all_space s = true -> lstrip s = [].
Proof.
  intros H. rewrite <- (app_nil_r s). rewrite lstrip_spaces; auto.
Qed.

Lemma rstrip_split (s : str) :
  exists r, s = rstrip s ++ r /\ all_space r = true.
Proof.
  unfold rstrip. destruct (lstrip_split (rev s)) as (l & Hs & Hl).
  exists (rev l). split.
  - rewrite <- rev_app_distr, <- Hs. symmetry. apply rev_involutive.
  - rewrite all_space_rev. exact Hl.
Qed.

Lemma last_rev_cons (c d : N) (s : str) : List.last (rev (c :: s)) d = c.
Proof. simpl. apply last_last. Qed.

(** The result of [strip] has no whitespace at either end. *)
Lemma strip_trimmed (s : str) : trimmed (strip s) = true.
Proof.
  unfold strip.
  destruct (rstrip (lstrip s)) as [|c m] eqn:E; [reflexivity|].
  unfold trimmed.
  assert (Hlast : isspace (List.last (c :: m) c) = false).
  { unfold rstrip in E.
    pose proof (lstrip_head (rev (lstrip s))) as Hh.
    destruct (lstrip (rev (lstrip s))) as [|d t] eqn:Et.
    - discriminate.
    - rewrite <- E. rewrite last_rev_cons. exact Hh. }
  assert (Hhead : isspace c = false).
  { destruct (rstrip_split (lstrip s)) as (r & Hs & _).
    rewrite E in Hs. pose proof (lstrip_head s) as Hh.
    rewrite Hs in Hh. exact Hh. }
  rewrite Hhead, Hlast. reflexivity.
Qed.

(** [strip] only removes whitespace, and only at the two ends. *)
Lemma strip_split (s : str) :
  exists l r, s = l ++ strip s ++ r
              /\ all_space l = true /\ all_space r = true.
Proof.
  destruct (lstrip_split s) as (l & Hs & Hl).
  destruct (rstrip_split (lstrip s)) as (r & Ht & Hr).
  exists l, r. unfold strip. rewrite <- Ht. auto.
Qed.

(** Conversely, a trimmed middle between two runs of whitespace is what
    [strip] returns. *)
Lemma strip_unique (l m r : str) :
  all_space l = true -> all_space r = true -> trimmed m = true ->
  strip (l ++ m ++ r) = m.
Proof.
  intros Hl Hr Hm. unfold strip. rewrite lstrip_spaces by exact Hl.
  destruct m as [|c m].
  - simpl. rewrite lstrip_all_space by exact Hr. reflexivity.
  - unfold trimmed in Hm. apply andb_prop in Hm as [Hc Hlast].
    apply negb_true_iff in Hc, Hlast.
    change ((c :: m) ++ r) with (c :: (m ++ r)).
    rewrite lstrip_fixed by exact Hc.
    change (c :: m ++ r) with ((c :: m) ++ r).
    unfold rstrip. rewrite rev_app_distr.
    rewrite lstrip_spaces by (rewrite all_space_rev; exact Hr).
    destruct (rev (c :: m)) as [|d t] eqn:E.
    + apply (f_equal (@rev N)) in E. rewrite rev_involutive in E.
      discriminate.
    + assert (Hd : d = List.last (c :: m) c).
      { apply (f_equal (@rev N)) in E. rewrite rev_involutive in E.
        rewrite E. symmetry. apply last_rev_cons. }
      rewrite lstrip_fixed by (rewrite Hd; exact Hlast).
      rewrite <- E. apply rev_involutive.
Qed.

Lemma strip_nil_iff (s : str) : strip s = [] <-> all_space s = true.
Proof.
  split.
  - intros H. destruct (strip_split s) as (l & r & Hs & Hl & Hr).
    rewrite H in Hs. rewrite Hs, !all_space_app, Hl, Hr. reflexivity.
  - intros H. unfold strip. rewrite lstrip_all_space by exact H. reflexivity.
Qed.

Lemma truthy_strip (s : str) :
  truthy s && truthy (strip s) = negb (all_space s).
Proof.
  destruct (all_space s) eqn:E.
  - apply strip_nil_iff in E. rewrite E. apply andb_false_r.
  - destruct s as [|c s]; [discriminate|].
    destruct (strip (c :: s)) eqn:Es; [|reflexivity].
    apply strip_nil_iff in Es. congruence.
Qed.

(** ** The prompt *)

Lemma prompt_frame (x : str) : prompt x = prompt_prefix ++ x ++ prompt_suffix.
Proof. vm_compute. reflexivity. Qed.

Lemma prompt_prefix_delimiter :
  prompt_prefix = prompt_header ++ delimiter ++ [newline].
Proof. vm_compute. reflexivity. Qed.

(** ** Running the script *)

Section Properties.

Variable configure : str -> outcome unit.
Variable service : list request -> request -> outcome response.

Local Abbreviation detect := (detect_hipaa_identifiers service).
Local Abbreviation handler := (button_handler service).

(** What the [try]/[except] of [detect_hipaa_identifiers] makes of the
    service's answer. *)
Lemma detect_eq (text_input : str) (w : World) :
  detect text_input w =
  (match answer service w text_input with
   | Returned t => Returned (strip t)
   | Raised e =>
       if isinstance e "Exception"%string then
         Returned (service_error_prefix ++ str_of e)
       else Raised e
   end,
   sent (request_for text_input) w).
Proof.
  unfold detect_hipaa_identifiers, try_except, bind, GenerativeModel,
    generate_content, lift, ret, answer, request_for, isinstance_any.
  simpl existsb. 
  destruct (service (requests w) _) as [resp|e].
  - destruct (text resp) as [t|e]; [reflexivity|].
    rewrite orb_false_r. destruct (isinstance e "Exception"%string); reflexivity.
  - rewrite orb_false_r. destruct (isinstance e "Exception"%string); reflexivity.
Qed.

Lemma detect_requests (text_input : str) (w : World) :
  requests (snd (detect text_input w)) = requests w ++ [request_for text_input].
Proof. rewrite detect_eq. reflexivity. Qed.

Lemma detect_screen (text_input : str) (w : World) :
  screen (snd (detect text_input w)) = screen w.
Proof. rewrite detect_eq. reflexivity. Qed.

Lemma handler_blank (user_input : str) (w : World) :
  all_space user_input = true ->
  handler user_input w = (Returned tt, show (WarningBox empty_input_warning) w).
Proof.
  intros H. unfold button_handler.
  rewrite truthy_strip, H. reflexivity.
Qed.

Lemma handler_eq (user_input : str) (w : World) :
  all_space user_input = false ->
  handler user_input w =
  let spin := SpinnerEnter (magnifier :: lit " Analyzing text...") in
  let w1 := sent (request_for user_input) (show spin w) in
  match fst (detect user_input w) with
  | Returned result =>
      (Returned tt,
       show SpinnerExit
         (show (Markdown result) (show (Subheader (lit "Analysis Result")) w1)))
  | Raised e => (Raised e, show SpinnerExit w1)
  end.
Proof.
  intros H. unfold button_handler.
  rewrite truthy_strip, H. cbn [negb].
  unfold with_spinner, bind. rewrite !detect_eq. cbn [fst].
  change (answer service (show _ w) user_input)
    with (answer service w user_input).
  destruct (answer service w user_input) as [t|e]; [reflexivity|].
  destruct (isinstance e "Exception"%string); reflexivity.
Qed.

Lemma handler_requests (user_input : str) (w : World) :
  all_space user_input = false ->
  requests (snd (handler user_input w)) = requests w ++ [request_for user_input].
Proof.
  intros H. rewrite handler_eq by exact H. cbv zeta.
  destruct (fst (detect user_input w)); reflexivity.
Qed.


(** A stored value comes from a secrets file. *)
Lemma stored_in_file (store : secret_store) (key k : str) :
  store !! key = Some k ->
  exists entries r, store = SecretsFile entries r /\ entries !! key = Some k.
Proof.
  destruct store as [r|entries r]; intros H.
  - discriminate H.
  - exists entries, r. split; [reflexivity | exact H].
Qed.

(** The script never looks at the stored value itself: once [configure]
    returns, the check is passed. *)
Lemma startup_accepted (env : Env) (w : World) (k : str) :
  secrets env !! lit "google_api_key" = Some k ->
  configure k = Returned tt ->
  startup configure env w = (Returned tt, show page_config w).
Proof.
  intros Hk Hc.
  destruct (stored_in_file _ _ _ Hk) as (entries & r & Hs & He).
  unfold startup, try_except, bind, st_do, getitem, genai_configure, lift, ret.
  rewrite Hs, He, Hc. reflexivity.
Qed.


Lemma rerun_eq (env : Env) (w : World) :
  rerun configure service env w =
  match secrets env with
  | NoSecretsFile report =>
      (Raised (SecretNotFound report), mk_World (requests w) [page_config])
  | SecretsFile entries _ =>
      match entries !! lit "google_api_key" with
      | None => (Raised StopException, mk_World (requests w) config_error_page)
      | Some k =>
          match configure k with
          | Raised e =>
              if isinstance_any e ["KeyError"; "AttributeError"]%string then
                (Raised StopException,
                 mk_World (requests w) config_error_page)
              else (Raised e, mk_World (requests w) [page_config])
          | Returned _ =>
              if clicked env then
                handler (entered_text env) (mk_World (requests w) front_page)
              else (Returned tt, mk_World (requests w) front_page)
          end
      end
  end.
Proof.
  unfold rerun, script, startup, try_except, bind, st_do, getitem,
    genai_configure, lift, raise, ret, st_stop, st_text_area, st_button.
  destruct (secrets env) as [r|entries r]; [reflexivity|].
  destruct (entries !! lit "google_api_key") as [k|]; [|reflexivity].
  destruct (configure k) as [u|e]; cbn [requests screen show].
  - destruct (clicked env); reflexivity.
  - destruct (isinstance_any e _); reflexivity.
Qed.

(** A run reads the world only through the service's answer. *)
Lemma rerun_determined (env : Env) (w w' : World) :
  answer service w (entered_text env) = answer service w' (entered_text env) ->
  fst (rerun configure service env w) = fst (rerun configure service env w')
  /\ screen (snd (rerun configure service env w))
     = screen (snd (rerun configure service env w')).
Proof.
  intros H. rewrite !rerun_eq.
  destruct (secrets env) as [r|entries r]; [split; reflexivity|].
  destruct (entries !! lit "google_api_key") as [k|];
    [|split; reflexivity].
  destruct (configure k) as [u|e].
  - destruct (clicked env); [|split; reflexivity].
    destruct (all_space (entered_text env)) eqn:Hb.
    + rewrite !handler_blank by exact Hb. split; reflexivity.
    + rewrite !handler_eq by exact Hb. rewrite !detect_eq. cbn [fst].
      change (answer service (mk_World (requests w) front_page))
        with (answer service w).
      change (answer service (mk_World (requests w') front_page))
        with (answer service w').
      rewrite <- H.
      destruct (answer service w (entered_text env)) as [t|e].
      * split; reflexivity.
      * destruct (isinstance e "Exception"%string); split; reflexivity.
  - destruct (isinstance_any e _); split; reflexivity.
Qed.


End Properties.

(** ** The prompt builder *)

(** C1.  For every non-empty input string [s], the prompt built by
    [detect_hipaa_identifiers] contains [s] as an exact contiguous substring
    ([s in prompt] is true), and [s] sits on its own line between the two
    [---] delimiter lines of the fixed template: the prompt is the template's
    header, the opening delimiter line, [s], a line break and the closing
    delimiter line. *)
Theorem prompt_contains_input (s : str) :
  s <> [] ->
  contains (prompt s) s = true
  /\ prompt s
     = prompt_header ++ (delimiter ++ [newline]) ++ s
       ++ [newline] ++ (delimiter ++ [newline]).
Proof.
  intros _. rewrite prompt_frame. split.
  - apply contains_app.
  - rewrite prompt_prefix_delimiter. unfold prompt_suffix.
    rewrite <- !app_assoc. reflexivity.
Qed.

Lemma prompt_contains_input_witness :
  example_text <> []
  /\ contains (prompt example_text) example_text = true
  /\ prompt example_text
     = prompt_header ++ (delimiter ++ [newline]) ++ example_text
       ++ [newline] ++ (delimiter ++ [newline]).
Proof.
  assert (H : example_text <> []) by (vm_compute; discriminate).
  split; [exact H | exact (prompt_contains_input example_text H)].
Defined.

(** C10.  The prompt is a fixed frame around the input: two strings [P] and
    [S], the same for every input, with [prompt x = P ++ x ++ S] for every
    [x].  So two prompts share the prefix [P] and the suffix [S] and are equal
    only for equal inputs.  [P] ends with the opening delimiter line and [S]
    is a line break and the closing delimiter line; nothing escapes the input,
    so for an input that itself contains [S] the prompt begins with the whole
    prompt of a shorter text, and the closing marker met first is not the end
    of the input. *)
Theorem prompt_fixed_frame :
  exists P S : str,
    (forall x, prompt x = P ++ x ++ S)
    /\ (forall x y, prompt x = prompt y -> x = y)
    /\ P = prompt_header ++ delimiter ++ [newline]
    /\ S = [newline] ++ delimiter ++ [newline]
    /\ (forall a b, prompt (a ++ S ++ b) = prompt a ++ b ++ S).
Proof.
  exists prompt_prefix, prompt_suffix. split_and!.
  - exact prompt_frame.
  - intros x y H. rewrite !prompt_frame in H.
    apply app_inv_head in H. apply app_inv_tail in H. exact H.
  - exact prompt_prefix_delimiter.
  - reflexivity.
  - intros a b. rewrite !prompt_frame, <- !app_assoc. reflexivity.
Qed.

(** C7.  The prompt is a function of the text alone, built without effect:
    in any two evaluations of [detect_hipaa_identifiers] on the same text,
    whatever the two services and the two worlds, the one request made carries
    the same prompt, [prompt text_input]; nothing else is sent and the screen
    is untouched.  The empty text is accepted: its prompt is the bare
    frame. *)
Theorem prompt_is_pure
    (service1 service2 : list request -> request -> outcome response)
    (text_input : str) (w1 w2 : World) :
  let after1 := snd (detect_hipaa_identifiers service1 text_input w1) in
  let after2 := snd (detect_hipaa_identifiers service2 text_input w2) in
  requests after1 = requests w1 ++ [mk_request gemini (prompt text_input)]
  /\ requests after2 = requests w2 ++ [mk_request gemini (prompt text_input)]
  /\ screen after1 = screen w1
  /\ screen after2 = screen w2
  /\ prompt [] = prompt_prefix ++ prompt_suffix.
Proof.
  cbv zeta. rewrite !detect_requests, !detect_screen.
  split_and!; try reflexivity; apply (prompt_frame []).
Qed.

(** ** The model client *)

(** C2, as amended.  Whenever the service call (the request, or the reading
    of the response's text) raises an exception [e] that is an instance of
    [Exception], [detect_hipaa_identifiers] does not propagate it: it returns
    the diagnostic string, which begins with [Error:] and ends with
    [str(e)], after its single request. *)
Theorem service_exception_reported
    (service : list request -> request -> outcome response)
    (text_input : str) (w : World) (e : exn) :
  answer service w text_input = Raised e ->
  isinstance e "Exception"%string = true ->
  detect_hipaa_identifiers service text_input w
  = (Returned (service_error_prefix ++ str_of e),
     sent (request_for text_input) w)
  /\ startswith (service_error_prefix ++ str_of e) (lit "Error:") = true
  /\ contains (service_error_prefix ++ str_of e) (str_of e) = true.
Proof.
  intros Ha He. rewrite detect_eq, Ha, He. split_and!; try reflexivity.
  pose proof (contains_app service_error_prefix (str_of e) []) as H.
  rewrite app_nil_r in H. exact H.
Qed.

Lemma service_exception_reported_witness :
  answer (service_raising ResourceExhausted) world0 example_text
  = Raised ResourceExhausted
  /\ isinstance ResourceExhausted "Exception"%string = true
  /\ detect_hipaa_identifiers (service_raising ResourceExhausted)
       example_text world0
     = (Returned (service_error_prefix ++ str_of ResourceExhausted),
        sent (request_for example_text) world0).
Proof.
  split; [reflexivity | split; [reflexivity |]].
  apply (service_exception_reported (service_raising ResourceExhausted)
           example_text world0 ResourceExhausted); reflexivity.
Defined.

(** C2, as stated, fails: an exception outside the [Exception] hierarchy
    raised by the call passes the [except Exception] clause and leaves
    [detect_hipaa_identifiers] as an exception, not as a string. *)
Lemma KeyboardInterrupt_propagates :
  answer (service_raising KeyboardInterrupt) world0 example_text
  = Raised KeyboardInterrupt
  /\ detect_hipaa_identifiers (service_raising KeyboardInterrupt)
       example_text world0
     = (Raised KeyboardInterrupt, mk_World [request_for example_text] []).
Proof. split; vm_compute; reflexivity. Qed.

(** C3.  When the call succeeds with response text [R],
    [detect_hipaa_identifiers] returns [R.strip()]: [R] is that result
    between two runs of whitespace, and the result has no whitespace at
    either end.  The handler shows it unchanged as the Markdown body under
    the result heading (for a blank text the handler only warns). *)
Theorem success_returns_stripped_text
    (service : list request -> request -> outcome response)
    (text_input : str) (w : World) (R : str) :
  answer service w text_input = Returned R ->
  fst (detect_hipaa_identifiers service text_input w) = Returned (strip R)
  /\ (exists l r, R = l ++ strip R ++ r
                  /\ all_space l = true /\ all_space r = true)
  /\ trimmed (strip R) = true
  /\ screen (snd (button_handler service text_input w))
     = screen w ++ (if all_space text_input
                    then [WarningBox empty_input_warning]
                    else result_page (strip R)).
Proof.
  intros Ha.
  assert (Hd : fst (detect_hipaa_identifiers service text_input w)
               = Returned (strip R)) by (rewrite detect_eq, Ha; reflexivity).
  split; [exact Hd|]. split; [apply strip_split|].
  split; [apply strip_trimmed|].
  destruct (all_space text_input) eqn:Hb.
  - rewrite handler_blank by exact Hb. reflexivity.
  - rewrite handler_eq by exact Hb. rewrite Hd.
    cbn [snd screen show sent result_page]. rewrite <- !app_assoc. reflexivity.
Qed.

Lemma success_returns_stripped_text_witness :
  answer (service_returning sample_answer) world0 example_text
  = Returned sample_answer
  /\ fst (detect_hipaa_identifiers (service_returning sample_answer)
            example_text world0)
     = Returned (strip sample_answer).
Proof.
  split; [reflexivity|].
  apply (success_returns_stripped_text (service_returning sample_answer)
           example_text world0 sample_answer).
  reflexivity.
Defined.

(** C6, as amended.  On a successful call with response text [R] the result
    is [R.strip()], and it is non-empty exactly when [R] has a character
    that is not whitespace. *)
Theorem success_result_nonempty_iff
    (service : list request -> request -> outcome response)
    (text_input : str) (w : World) (R : str) :
  answer service w text_input = Returned R ->
  exists result,
    fst (detect_hipaa_identifiers service text_input w) = Returned result
    /\ result = strip R
    /\ (result <> [] <-> all_space R = false).
Proof.
  intros Ha. exists (strip R). rewrite detect_eq, Ha.
  split_and!; try reflexivity.
  rewrite <- not_true_iff_false. apply not_iff_compat, strip_nil_iff.
Qed.

Lemma success_result_nonempty_iff_witness :
  answer (service_returning sample_answer) world0 example_text
  = Returned sample_answer
  /\ exists result,
       fst (detect_hipaa_identifiers (service_returning sample_answer)
              example_text world0) = Returned result
       /\ result = strip sample_answer
       /\ (result <> [] <-> all_space sample_answer = false).
Proof.
  split; [reflexivity|].
  apply (success_result_nonempty_iff (service_returning sample_answer)
           example_text world0 sample_answer).
  reflexivity.
Defined.

(** C6, as stated, fails: the service answers a successful call with a
    single space, and the result is the empty string. *)
Lemma blank_answer_gives_empty_result :
  answer (service_returning [32]) world0 example_text = Returned [32]
  /\ detect_hipaa_identifiers (service_returning [32]) example_text world0
     = (Returned [], mk_World [request_for example_text] []).
Proof. split; vm_compute; reflexivity. Qed.

(** C9.  For every input with a character that is not whitespace (so, a
    non-empty one), one run of the button handler makes exactly one request,
    whatever the service does with it: a failed call is not repeated.  A
    second run on the same input makes the same request again: nothing is
    cached. *)
Theorem one_request_per_invocation
    (service : list request -> request -> outcome response)
    (user_text : str) (w : World) :
  all_space user_text = false ->
  user_text <> []
  /\ requests (snd (button_handler service user_text w))
     = requests w ++ [request_for user_text]
  /\ requests (snd (button_handler service user_text
                      (snd (button_handler service user_text w))))
     = requests w ++ [request_for user_text; request_for user_text].
Proof.
  intros H. split_and!.
  - intros ->. discriminate.
  - apply handler_requests, H.
  - rewrite !handler_requests by exact H.
    rewrite <- app_assoc. reflexivity.
Qed.

Lemma one_request_per_invocation_witness :
  all_space example_text = false
  /\ requests (snd (button_handler (service_raising ResourceExhausted)
                      example_text world0))
     = [request_for example_text].
Proof.
  split; [reflexivity|].
  apply (one_request_per_invocation (service_raising ResourceExhausted)
           example_text world0).
  reflexivity.
Defined.

(** ** The page *)

(** C4.  For every input that is empty or made of whitespace only, the
    button handler shows the warning and does nothing else: the request log
    is unchanged, so [detect_hipaa_identifiers], which always sends a
    request, was not run. *)
Theorem blank_input_warns
    (service : list request -> request -> outcome response)
    (user_text : str) (w : World) :
  all_space user_text = true ->
  button_handler service user_text w
  = (Returned tt, show (WarningBox empty_input_warning) w)
  /\ requests (snd (button_handler service user_text w)) = requests w
  /\ requests (snd (detect_hipaa_identifiers service user_text w))
     <> requests w.
Proof.
  intros H. rewrite handler_blank by exact H. split_and!; try reflexivity.
  rewrite detect_requests. intros E.
  apply (f_equal (@List.length request)) in E.
  rewrite length_app in E. simpl in E. lia.
Qed.

Lemma blank_input_warns_witness :
  all_space (lit "  ") = true
  /\ button_handler (service_returning sample_answer) (lit "  ") world0
     = (Returned tt, show (WarningBox empty_input_warning) world0).
Proof.
  split; [reflexivity|].
  apply (blank_input_warns (service_returning sample_answer) (lit "  ")
           world0).
  reflexivity.
Defined.




(** C8.  Running the whole script twice in a row on the same widget state
    and secret store, with the service giving the second request the answer
    it gave the first, ends both runs with the same outcome and the same
    page: a run reads nothing of what earlier runs left behind. *)
Theorem flow_idempotent
    (configure : str -> outcome unit)
    (service : list request -> request -> outcome response)
    (env : Env) (w : World) :
  answer service w (entered_text env)
  = answer service (snd (rerun configure service env w)) (entered_text env) ->
  fst (rerun configure service env w)
  = fst (rerun configure service env (snd (rerun configure service env w)))
  /\ screen (snd (rerun configure service env w))
     = screen (snd (rerun configure service env
                      (snd (rerun configure service env w)))).
Proof. apply rerun_determined. Qed.

Lemma flow_idempotent_witness :
  answer (service_returning sample_answer) world0 (entered_text pressed_env)
  = answer (service_returning sample_answer)
      (snd (rerun configure_ok (service_returning sample_answer)
              pressed_env world0))
      (entered_text pressed_env)
  /\ screen (snd (rerun configure_ok (service_returning sample_answer)
                    pressed_env world0))
     = front_page ++ result_page (strip sample_answer)
  /\ screen (snd (rerun configure_ok (service_returning sample_answer)
                    pressed_env world0))
     = screen (snd (rerun configure_ok (service_returning sample_answer)
                      pressed_env
                      (snd (rerun configure_ok
                              (service_returning sample_answer)
                              pressed_env world0)))).
Proof.
  split; [reflexivity | split; [vm_compute; reflexivity |]].
  apply (flow_idempotent configure_ok (service_returning sample_answer)
           pressed_env world0).
  reflexivity.
Defined.

(** * Further properties of the script *)

Section Runs.

Variable configure : str -> outcome unit.
Variable service : list request -> request -> outcome response.

Local Abbreviation run := (rerun configure service).
Local Abbreviation handler := (button_handler service).

Lemma strip_fixed_iff (s : str) : strip s = s <-> trimmed s = true.
Proof.
  split.
  - intros H. rewrite <- H. apply strip_trimmed.
  - intros H. pose proof (strip_unique [] s [] eq_refl eq_refl H) as E.
    rewrite app_nil_r in E. exact E.
Qed.

Lemma rerun_accepted (env : Env) (w : World) :
  credential_accepted configure (secrets env) = true ->
  run env w =
  if clicked env then
    handler (entered_text env) (mk_World (requests w) front_page)
  else (Returned tt, mk_World (requests w) front_page).
Proof.
  rewrite rerun_eq. unfold credential_accepted.
  destruct (secrets env) as [r|entries r]; [discriminate|].
  destruct (entries !! lit "google_api_key") as [k|]; [|discriminate].
  destruct (configure k); [reflexivity | discriminate].
Qed.

Lemma rerun_not_accepted (env : Env) (w : World) :
  credential_accepted configure (secrets env) = false ->
  requests (snd (run env w)) = requests w.
Proof.
  rewrite rerun_eq. unfold credential_accepted.
  destruct (secrets env) as [r|entries r]; [reflexivity|].
  destruct (entries !! lit "google_api_key") as [k|]; [|reflexivity].
  destruct (configure k) as [u|e]; [discriminate|].
  intros _. destruct (isinstance_any e _); reflexivity.
Qed.

(** The requests one run adds to the log. *)
Lemma rerun_requests (env : Env) (w : World) :
  requests (snd (run env w)) =
  requests w ++
  (if credential_accepted configure (secrets env)
      && (clicked env && negb (all_space (entered_text env)))
   then [request_for (entered_text env)] else []).
Proof.
  destruct (credential_accepted configure (secrets env)) eqn:Hc.
  - rewrite rerun_accepted by exact Hc. cbn [andb].
    destruct (clicked env); cbn [andb]; [|symmetry; apply app_nil_r].
    destruct (all_space (entered_text env)) eqn:Hb; cbn [negb].
    + rewrite handler_blank by exact Hb. symmetry. apply app_nil_r.
    + rewrite handler_requests by exact Hb. reflexivity.
  - rewrite rerun_not_accepted by exact Hc. symmetry. apply app_nil_r.
Qed.

Lemma session_cons_snd (store : secret_store) (a : option str * bool)
    (acts : list (option str * bool)) (w : World) :
  snd (session configure service store (a :: acts) w)
  = snd (session configure service store acts
           (snd (run (mk_Env store (fst a) (snd a)) w))).
Proof.
  destruct a as [t c]. cbn [session fst snd].
  destruct (run (mk_Env store t c) w) as [r w']. cbn [snd].
  destruct (session configure service store acts w') as [rs w''].
  reflexivity.
Qed.

End Runs.

(** ** Runs of the whole script *)

(** X1.  With the credential in place, a run in which the button was not
    pressed draws the page down to the button and ends there: whatever text
    the area holds, nothing is sent to the service. *)
Theorem run_without_press
    (configure : str -> outcome unit)
    (service : list request -> request -> outcome response)
    (env : Env) (w : World) :
  credential_accepted configure (secrets env) = true ->
  clicked env = false ->
  rerun configure service env w
  = (Returned tt, mk_World (requests w) front_page).
Proof.
  intros Hc Hp. rewrite rerun_accepted by exact Hc. rewrite Hp. reflexivity.
Qed.

Lemma run_without_press_witness :
  credential_accepted configure_ok store_with_key = true
  /\ rerun configure_ok (service_returning sample_answer)
       (mk_Env store_with_key (Some (lit "Jane Roe, MRN 12345")) false) world0
     = (Returned tt, mk_World [] front_page).
Proof.
  split; [reflexivity|].
  apply (run_without_press configure_ok (service_returning sample_answer)
           (mk_Env store_with_key (Some (lit "Jane Roe, MRN 12345")) false)
           world0); reflexivity.
Defined.

(** X2.  With the credential in place and the button pressed over a text
    that is not blank, a service call that raises an instance of
    [Exception] does not end the run with an error: the run completes, and
    the diagnostic string stands where the analysis would, as the Markdown
    body under the result heading, after the one request. *)
Theorem run_shows_service_error
    (configure : str -> outcome unit)
    (service : list request -> request -> outcome response)
    (env : Env) (w : World) (e : exn) :
  credential_accepted configure (secrets env) = true ->
  clicked env = true ->
  all_space (entered_text env) = false ->
  answer service w (entered_text env) = Raised e ->
  isinstance e "Exception"%string = true ->
  rerun configure service env w
  = (Returned tt,
     mk_World (requests w ++ [request_for (entered_text env)])
       (front_page ++ result_page (service_error_prefix ++ str_of e))).
Proof.
  intros Hc Hp Hb Ha He.
  rewrite rerun_accepted by exact Hc. rewrite Hp.
  rewrite handler_eq by exact Hb. rewrite detect_eq. cbn [fst].
  change (answer service (mk_World (requests w) front_page))
    with (answer service w).
  rewrite Ha, He. reflexivity.
Qed.

Lemma run_shows_service_error_witness :
  credential_accepted configure_ok (secrets pressed_env) = true
  /\ clicked pressed_env = true
  /\ all_space (entered_text pressed_env) = false
  /\ answer (service_raising ResourceExhausted) world0
       (entered_text pressed_env) = Raised ResourceExhausted
  /\ isinstance ResourceExhausted "Exception"%string = true
  /\ rerun configure_ok (service_raising ResourceExhausted) pressed_env world0
     = (Returned tt,
        mk_World ([] ++ [request_for (entered_text pressed_env)])
          (front_page
           ++ result_page (service_error_prefix ++ str_of ResourceExhausted))).
Proof.
  do 5 (split; [reflexivity|]).
  apply (run_shows_service_error configure_ok
           (service_raising ResourceExhausted) pressed_env world0
           ResourceExhausted); reflexivity.
Defined.

(** X3.  The busy indicator is always taken down.  For a text that is not
    blank the handler puts up the indicator, and removes it as its last act
    both when the analysis is shown (heading and body in between, the
    handler returns) and when an exception outside [Exception] passes
    through (nothing in between, the exception goes on). *)
Theorem handler_spinner_balanced
    (service : list request -> request -> outcome response)
    (text_input : str) (w : World) :
  all_space text_input = false ->
  exists mid,
    screen (snd (button_handler service text_input w))
    = screen w ++ [SpinnerEnter spinner_label] ++ mid ++ [SpinnerExit]
    /\ ((exists result,
           fst (button_handler service text_input w) = Returned tt
           /\ mid = [Subheader (lit "Analysis Result"); Markdown result])
        \/ (exists e,
              fst (button_handler service text_input w) = Raised e
              /\ isinstance e "Exception"%string = false
              /\ mid = [])).
Proof.
  intros Hb. rewrite handler_eq by exact Hb. rewrite detect_eq. cbn [fst].
  destruct (answer service w text_input) as [t|e].
  - exists [Subheader (lit "Analysis Result"); Markdown (strip t)].
    split.
    + cbn [snd screen show sent]. rewrite <- !app_assoc. reflexivity.
    + left. exists (strip t). split; reflexivity.
  - destruct (isinstance e "Exception"%string) eqn:He.
    + exists [Subheader (lit "Analysis Result");
              Markdown (service_error_prefix ++ str_of e)].
      split.
      * cbn [snd screen show sent]. rewrite <- !app_assoc. reflexivity.
      * left. eexists. split; reflexivity.
    + exists []. split.
      * cbn [snd screen show sent]. rewrite <- !app_assoc. reflexivity.
      * right. exists e. split_and!; [reflexivity | exact He | reflexivity].
Qed.

Lemma handler_spinner_balanced_witness :
  all_space example_text = false
  /\ exists mid,
       screen (snd (button_handler (service_raising KeyboardInterrupt)
                      example_text world0))
       = screen world0 ++ [SpinnerEnter spinner_label] ++ mid ++ [SpinnerExit]
       /\ ((exists result,
              fst (button_handler (service_raising KeyboardInterrupt)
                     example_text world0) = Returned tt
              /\ mid = [Subheader (lit "Analysis Result"); Markdown result])
           \/ (exists e,
                 fst (button_handler (service_raising KeyboardInterrupt)
                        example_text world0) = Raised e
                 /\ isinstance e "Exception"%string = false
                 /\ mid = [])).
Proof.
  split; [reflexivity|].
  apply (handler_spinner_balanced (service_raising KeyboardInterrupt)
           example_text world0).
  reflexivity.
Defined.

(** X4.  The credential check catches [KeyError] and [AttributeError] only.
    When [genai.configure] raises an exception of another class, the script
    shows no configuration error: the exception leaves the script right
    after the page configuration, before any widget is drawn and with
    nothing sent. *)
Theorem configure_error_propagates
    (configure : str -> outcome unit)
    (service : list request -> request -> outcome response)
    (env : Env) (w : World) (k : str) (e : exn) :
  secrets env !! lit "google_api_key" = Some k ->
  configure k = Raised e ->
  isinstance_any e ["KeyError"; "AttributeError"]%string = false ->
  rerun configure service env w
  = (Raised e, mk_World (requests w) [page_config]).
Proof.
  intros Hk Hc He.
  destruct (stored_in_file _ _ _ Hk) as (entries & r & Hs & Hl).
  rewrite rerun_eq, Hs, Hl, Hc, He. reflexivity.
Qed.

Lemma configure_error_propagates_witness :
  secrets pressed_env !! lit "google_api_key" = Some (lit "AIza-example")
  /\ configure_raising (ValueError (lit "bad transport")) (lit "AIza-example")
     = Raised (ValueError (lit "bad transport"))
  /\ isinstance_any (ValueError (lit "bad transport"))
       ["KeyError"; "AttributeError"]%string = false
  /\ rerun (configure_raising (ValueError (lit "bad transport")))
       (service_returning sample_answer) pressed_env world0
     = (Raised (ValueError (lit "bad transport")),
        mk_World [] [page_config]).
Proof.
  do 3 (split; [reflexivity|]).
  apply (configure_error_propagates
           (configure_raising (ValueError (lit "bad transport")))
           (service_returning sample_answer) pressed_env world0
           (lit "AIza-example") (ValueError (lit "bad transport")));
    reflexivity.
Defined.

(** ** Sessions *)

Lemma analysed_length (acts : list (option str * bool)) :
  (length (analysed acts) <= length (List.filter snd acts))%nat.
Proof.
  induction acts as [|[t c] acts IH]; [reflexivity|].
  unfold analysed in *. cbn [flat_map List.filter snd].
  rewrite length_app.
  destruct c; cbn [andb].
  - destruct (negb (all_space (act_text (t, true)))); simpl; lia.
  - simpl. exact IH.
Qed.

Lemma analysed_not_blank (acts : list (option str * bool)) :
  Forall (fun t => all_space t = false) (analysed acts).
Proof.
  induction acts as [|a acts IH]; [constructor|].
  unfold analysed in *. cbn [flat_map].
  apply Forall_app. split; [|exact IH].
  destruct (snd a); cbn [andb]; [|constructor].
  destruct (all_space (act_text a)) eqn:Hb; cbn [negb]; constructor.
  - exact Hb.
  - constructor.
Qed.

Lemma session_log
    (configure : str -> outcome unit)
    (service : list request -> request -> outcome response)
    (store : secret_store) (acts : list (option str * bool)) (w : World) :
  requests (snd (session configure service store acts w))
  = requests w
    ++ (if credential_accepted configure store
        then List.map request_for (analysed acts) else []).
Proof.
  revert w. induction acts as [|a acts IH]; intros w.
  - cbn [session snd analysed flat_map List.map].
    destruct (credential_accepted configure store);
      symmetry; apply app_nil_r.
  - rewrite session_cons_snd, IH, rerun_requests.
    cbn [secrets clicked].
    change (entered_text (mk_Env store (fst a) (snd a))) with (act_text a).
    rewrite <- app_assoc. f_equal.
    destruct (credential_accepted configure store); [|reflexivity].
    cbn [andb]. unfold analysed. cbn [flat_map].
    rewrite map_app.
    destruct (snd a && negb (all_space (act_text a))); reflexivity.
Qed.

Lemma prompt_injective (x y : str) : prompt x = prompt y -> x = y.
Proof.
  rewrite !prompt_frame. intros H.
  apply app_inv_head in H. apply app_inv_tail in H. exact H.
Qed.

(** X5.  The request log of a session: when the credential check passes,
    the session sends exactly one request for each interaction that presses
    the button over a text that is not blank, in the order of the
    interactions, each carrying the prompt of that text; when the check does
    not pass, it sends nothing at all. *)
Theorem session_requests
    (configure : str -> outcome unit)
    (service : list request -> request -> outcome response)
    (store : secret_store) (acts : list (option str * bool)) (w : World) :
  requests (snd (session configure service store acts w))
  = requests w
    ++ (if credential_accepted configure store
        then List.map request_for (analysed acts) else []).
Proof. apply session_log. Qed.

(** X6.  What a session never does.  Whatever the store, the library calls
    and the interactions, the requests a session adds are no more than the
    button presses, every one of them goes to the model [gemini-2.5-pro],
    and every one carries the prompt of a text with a character that is not
    whitespace. *)
Theorem session_requests_bounded
    (configure : str -> outcome unit)
    (service : list request -> request -> outcome response)
    (store : secret_store) (acts : list (option str * bool)) (w : World) :
  exists added,
    requests (snd (session configure service store acts w))
    = requests w ++ added
    /\ (length added <= length (List.filter snd acts))%nat
    /\ Forall (fun rq =>
                 model_name rq = gemini
                 /\ exists t, all_space t = false /\ contents rq = prompt t)
         added.
Proof.
  rewrite session_log.
  destruct (credential_accepted configure store).
  - exists (List.map request_for (analysed acts)). split_and!.
    + reflexivity.
    + rewrite length_map. apply analysed_length.
    + apply List.Forall_map.
      eapply List.Forall_impl; [|apply analysed_not_blank].
      intros t Ht. split; [reflexivity|]. exists t. split; [exact Ht|reflexivity].
  - exists []. split_and!; [reflexivity | simpl; lia | constructor].
Qed.

(** ** What the page and the result do not tell *)

(** X7.  Failure is reported in band.  A successful call whose text is the
    diagnostic string of an exception (a string with no whitespace at its
    ends) and a call that raises that exception leave
    [detect_hipaa_identifiers] with the same result and the same world: its
    caller cannot tell the two apart. *)
Theorem error_in_band
    (service1 service2 : list request -> request -> outcome response)
    (text_input : str) (w : World) (e : exn) :
  answer service1 w text_input = Raised e ->
  isinstance e "Exception"%string = true ->
  answer service2 w text_input = Returned (service_error_prefix ++ str_of e) ->
  trimmed (service_error_prefix ++ str_of e) = true ->
  detect_hipaa_identifiers service1 text_input w
  = detect_hipaa_identifiers service2 text_input w.
Proof.
  intros H1 He H2 Ht. rewrite !detect_eq, H1, H2, He.
  apply strip_fixed_iff in Ht. rewrite Ht. reflexivity.
Qed.

Lemma error_in_band_witness :
  answer (service_raising ResourceExhausted) world0 example_text
  = Raised ResourceExhausted
  /\ isinstance ResourceExhausted "Exception"%string = true
  /\ answer (service_returning
               (service_error_prefix ++ str_of ResourceExhausted))
       world0 example_text
     = Returned (service_error_prefix ++ str_of ResourceExhausted)
  /\ trimmed (service_error_prefix ++ str_of ResourceExhausted) = true
  /\ detect_hipaa_identifiers (service_raising ResourceExhausted)
       example_text world0
     = detect_hipaa_identifiers
         (service_returning
            (service_error_prefix ++ str_of ResourceExhausted))
         example_text world0.
Proof.
  do 4 (split; [reflexivity|]).
  apply (error_in_band (service_raising ResourceExhausted)
           (service_returning
              (service_error_prefix ++ str_of ResourceExhausted))
           example_text world0 ResourceExhausted); reflexivity.
Defined.

(** X8.  Every run, however it ends, starts its page with the page
    configuration. *)
Theorem page_config_first
    (configure : str -> outcome unit)
    (service : list request -> request -> outcome response)
    (env : Env) (w : World) :
  exists rest,
    screen (snd (rerun configure service env w)) = page_config :: rest.
Proof.
  rewrite rerun_eq.
  destruct (secrets env) as [r|entries r]; [eexists; reflexivity|].
  destruct (entries !! lit "google_api_key") as [k|];
    [|eexists; reflexivity].
  destruct (configure k) as [u|e].
  - destruct (clicked env); [|eexists; reflexivity].
    destruct (all_space (entered_text env)) eqn:Hb.
    + rewrite handler_blank by exact Hb. eexists. reflexivity.
    + rewrite handler_eq by exact Hb. cbv zeta.
      destruct (fst (detect_hipaa_identifiers service _ _));
        eexists; reflexivity.
  - destruct (isinstance_any e _); eexists; reflexivity.
Qed.


(** X10.  The handler strips the text only to test it.  The request it
    sends carries the prompt of the text as typed, whitespace at the ends
    included: it is the prompt of the stripped text only when the text has
    no whitespace at its ends. *)
Theorem text_sent_untrimmed
    (service : list request -> request -> outcome response)
    (text_input : str) (w : World) :
  all_space text_input = false ->
  exists rq,
    requests (snd (button_handler service text_input w)) = requests w ++ [rq]
    /\ contents rq = prompt text_input
    /\ (contents rq = prompt (strip text_input)
        <-> trimmed text_input = true).
Proof.
  intros Hb. exists (request_for text_input). split_and!.
  - apply handler_requests. exact Hb.
  - reflexivity.
  - cbn [contents request_for]. rewrite <- strip_fixed_iff. split.
    + intros H. symmetry. apply prompt_injective. exact H.
    + intros ->. reflexivity.
Qed.

Lemma text_sent_untrimmed_witness :
  all_space (lit " Jane Roe ") = false
  /\ exists rq,
       requests (snd (button_handler (service_returning sample_answer)
                        (lit " Jane Roe ") world0))
       = requests world0 ++ [rq]
       /\ contents rq = prompt (lit " Jane Roe ")
       /\ (contents rq = prompt (strip (lit " Jane Roe "))
           <-> trimmed (lit " Jane Roe ") = true).
Proof.
  split; [reflexivity|].
  apply (text_sent_untrimmed (service_returning sample_answer)
           (lit " Jane Roe ") world0).
  reflexivity.
Defined.

(** ** How a call and a run can fail *)

(** X11.  An exception that leaves [detect_hipaa_identifiers] is never an
    instance of [Exception]: it is the exception the service call raised,
    and its class derives from [BaseException] only. *)
Theorem detect_raises_only_non_Exception
    (service : list request -> request -> outcome response)
    (text_input : str) (w : World) (e : exn) :
  fst (detect_hipaa_identifiers service text_input w) = Raised e ->
  answer service w text_input = Raised e
  /\ isinstance e "Exception"%string = false.
Proof.
  rewrite detect_eq. cbn [fst].
  destruct (answer service w text_input) as [t|e']; [discriminate|].
  destruct (isinstance e' "Exception"%string) eqn:He; [discriminate|].
  intros [= ->]. split; [reflexivity | exact He].
Qed.

Lemma detect_raises_only_non_Exception_witness :
  fst (detect_hipaa_identifiers (service_raising KeyboardInterrupt)
         example_text world0) = Raised KeyboardInterrupt
  /\ answer (service_raising KeyboardInterrupt) world0 example_text
     = Raised KeyboardInterrupt
  /\ isinstance KeyboardInterrupt "Exception"%string = false.
Proof.
  split; [vm_compute; reflexivity|].
  apply (detect_raises_only_non_Exception (service_raising KeyboardInterrupt)
           example_text world0 KeyboardInterrupt).
  vm_compute. reflexivity.
Defined.



(** ** Runs of a session do not interfere *)

Lemma session_cons_fst
    (configure : str -> outcome unit)
    (service : list request -> request -> outcome response)
    (store : secret_store) (a : option str * bool)
    (acts : list (option str * bool)) (w : World) :
  fst (session configure service store (a :: acts) w)
  = (fst (rerun configure service (mk_Env store (fst a) (snd a)) w),
     screen (snd (rerun configure service (mk_Env store (fst a) (snd a)) w)))
    :: fst (session configure service store acts
              (snd (rerun configure service
                      (mk_Env store (fst a) (snd a)) w))).
Proof.
  destruct a as [t c]. cbn [session fst snd].
  destruct (rerun configure service (mk_Env store t c) w) as [r w'].
  cbn [fst snd].
  destruct (session configure service store acts w') as [rs w''].
  reflexivity.
Qed.

(** X13.  When the service answers a request without regard to the
    requests made before, the runs of a session do not influence one
    another: each run ends, and draws its page, as it would as the first
    run of a fresh process.  In particular a run after a failed one is not
    affected by the failure. *)
Theorem session_runs_independent
    (configure : str -> outcome unit)
    (service : list request -> request -> outcome response)
    (store : secret_store) (acts : list (option str * bool)) (w : World) :
  (forall h h' rq, service h rq = service h' rq) ->
  fst (session configure service store acts w)
  = List.map
      (fun a =>
         (fst (rerun configure service (mk_Env store (fst a) (snd a)) world0),
          screen (snd (rerun configure service
                         (mk_Env store (fst a) (snd a)) world0))))
      acts.
Proof.
  intros Hs. revert w. induction acts as [|a acts IH]; intros w.
  - reflexivity.
  - rewrite session_cons_fst, IH. cbn [List.map].
    destruct (rerun_determined configure service
                (mk_Env store (fst a) (snd a)) w world0) as [Ho Hp].
    + unfold answer. rewrite (Hs (requests w) (requests world0)). reflexivity.
    + rewrite Ho, Hp. reflexivity.
Qed.

Lemma session_runs_independent_witness :
  (forall h h' rq,
     service_raising ResourceExhausted h rq
     = service_raising ResourceExhausted h' rq)
  /\ fst (session configure_ok (service_raising ResourceExhausted)
            store_with_key [(None, true); (Some (lit "  "), true)] world0)
     = List.map
         (fun a =>
            (fst (rerun configure_ok (service_raising ResourceExhausted)
                    (mk_Env store_with_key (fst a) (snd a)) world0),
             screen (snd (rerun configure_ok
                            (service_raising ResourceExhausted)
                            (mk_Env store_with_key (fst a) (snd a)) world0))))
         [(None, true); (Some (lit "  "), true)].
Proof.
  split; [intros h h' rq; reflexivity|].
  apply (session_runs_independent configure_ok
           (service_raising ResourceExhausted) store_with_key
           [(None, true); (Some (lit "  "), true)] world0).
  intros h h' rq. reflexivity.
Defined.

(** ** Without a secrets file *)


